(** * The /predict handler of app.py

    A shallow embedding of the request handler [predict] of [app.py] (a Flask
    front-end that stores an uploaded image, sends it to a hosted detection
    model and reshapes the answer) together with the properties its
    specification states about it.

    What the handler computes itself is modelled as executable functions:
    the validation chain, the [try]/[except]/[finally] statement, the choice
    of the best detection with [max], [str.title] and the [set] of tags.
    What it calls outside the process is modelled as follows.
    - The upload directory is a finite map from paths to file contents.
    - [file.save] and [os.remove] either have their nominal effect on that
      map or raise: which one happens in a given request is decided by the
      environment, described by a record [Faults].
    - The model handle is a function from the stored path, the two
      thresholds and the file system to either a raised exception or the
      decoded answer of the provider.
    - [secure_filename] is a parameter of the development: nothing proved
      here depends on what it returns.
    Logging calls are left out: they neither change the upload directory nor
    the response. *)

From Stdlib Require Import QArith Ascii String.
From stdpp Require Import gmap strings list.

Local Open Scope string_scope.
Local Open Scope Z_scope.
Local Open Scope list_scope.

(** ** Python values used by the handler *)

(** A raised exception.  [except Exception] catches the first kind only;
    the second stands for the classes that derive from [BaseException]
    alone ([KeyboardInterrupt], [SystemExit], [GeneratorExit]). *)
Inductive exn : Type :=
  | Exception (cls : string) (msg : string)
  | BaseExceptionOnly (cls : string) (msg : string).

(** [isinstance(e, Exception)] *)
Definition isinstance_Exception (e : exn) : bool :=
  match e with
  | Exception _ _ => true
  | BaseExceptionOnly _ _ => false
  end.

(** [str(e)] *)
Definition str (e : exn) : string :=
  match e with
  | Exception _ msg => msg
  | BaseExceptionOnly _ msg => msg
  end.

(** What a call produces: a value, or a raised exception. *)
Inductive outcome (A : Type) : Type :=
  | Return (a : A)
  | Raise (e : exn).
Arguments Return {A} a.
Arguments Raise {A} e.

(** One detected object, as the handler reads it: [p['class']] and
    [p['confidence']].  Confidences are finite JSON numbers.  Only answers
    of this shape are modelled: an answer whose entries lack a key or hold
    a value of another type makes lines 90-96 raise, which is outside this
    type. *)
Record Detection : Type := mkDetection {
  class : string;
  confidence : Q
}.

(** The decoded provider answer; [predictions] is the entry under the key
    ['predictions'], [None] when the key is absent. *)
Record PredictionResult : Type := mkPredictionResult {
  predictions : option (list Detection)
}.

(** JSON documents built by the handler; a Python [dict] literal is kept
    with its keys in the order they are written. *)
#[local] Set Warnings "-register-all".
Inductive json : Type :=
  | JNum (q : Q)
  | JStr (s : string)
  | JArr (l : list json)
  | JObj (o : list (string * json)).

Record Response : Type := mkResponse {
  body : json;
  status : Z
}.

(** [jsonify(d)]: a response with the default status 200. *)
Definition jsonify (d : list (string * json)) : Response :=
  {| body := JObj d; status := 200 |}.

(** [return resp, code] in a Flask view. *)
Definition with_status (r : Response) (code : Z) : Response :=
  {| body := body r; status := code |}.

(** ** Built-ins *)

Definition is_upper (c : ascii) : bool :=
  let n := N_of_ascii c in ((65 <=? n) && (n <=? 90))%N.

Definition is_lower (c : ascii) : bool :=
  let n := N_of_ascii c in ((97 <=? n) && (n <=? 122))%N.

Definition to_upper (c : ascii) : ascii :=
  if is_lower c then ascii_of_N (N_of_ascii c - 32) else c.

Definition to_lower (c : ascii) : ascii :=
  if is_upper c then ascii_of_N (N_of_ascii c + 32) else c.

(** [str.title] on ASCII text: a letter that follows a letter is put in
    lower case, any other letter in upper case; [previous_is_cased] is the
    flag CPython carries along.  Bytes outside ASCII are left as they are,
    which is not what Python does to letters outside ASCII: what is stated
    below about title-casing is stated for labels that satisfy [isascii]. *)
Fixpoint title_from (previous_is_cased : bool) (s : string) : string :=
  match s with
  | EmptyString => EmptyString
  | String c s' =>
      String (if previous_is_cased then to_lower c else to_upper c)
             (title_from (is_upper c || is_lower c) s')
  end.

Definition title (s : string) : string := title_from false s.

(** [str.isascii]: every character is below 128. *)
Definition isascii (s : string) : bool :=
  forallb (fun c => (N_of_ascii c <? 128)%N) (list_ascii_of_string s).

(** [k > best_key] on two confidences. *)
Definition Qgtb (k best_key : Q) : bool := negb (Qle_bool k best_key).

(** The loop of [max(iterable, key=...)]: the running maximum is replaced
    only by an item whose key is strictly greater. *)
Fixpoint max_from {A : Type} (key : A -> Q) (best : A) (l : list A) : A :=
  match l with
  | [] => best
  | item :: l' =>
      max_from key (if Qgtb (key item) (key best) then item else best) l'
  end.

(** [max(l, key=key)]; an empty argument raises [ValueError]. *)
Definition py_max {A : Type} (key : A -> Q) (l : list A) : outcome A :=
  match l with
  | [] => Raise (Exception "ValueError" "max() arg is an empty sequence")
  | first :: l' => Return (max_from key first l')
  end.

(** [list(set(l))]: the distinct elements, in the order the set yields
    them. *)
Definition list_set (l : list string) : list string :=
  elements (list_to_set l : gset string).

(** ** The request *)

(** A werkzeug [FileStorage]: the client-supplied name and the bytes. *)
Record FileStorage : Type := mkFileStorage {
  filename : string;
  stream : list Byte.byte
}.

(** [FileStorage.__bool__] is [bool(self.filename)]. *)
Definition truthy (file : FileStorage) : bool :=
  negb (String.eqb (filename file) "").

(** [request.files] is a multi-dict: the fields of the multipart form in
    the order they were sent; a key may occur more than once. *)
Record Request : Type := mkRequest {
  files : list (string * FileStorage)
}.

(** [key in d] *)
Definition contains (key : string) (d : list (string * FileStorage)) : bool :=
  existsb (fun kv => String.eqb (fst kv) key) d.

(** [d[key]]: the first value stored under [key]. *)
Fixpoint getitem (key : string) (d : list (string * FileStorage))
  : outcome FileStorage :=
  match d with
  | [] => Raise (Exception "BadRequestKeyError" "400 Bad Request")
  | (k, v) :: d' => if String.eqb k key then Return v else getitem key d'
  end.

(** ** The upload directory and the handler monad *)

(** The files of the upload directory, by path. *)
Abbreviation fs := (gmap string (list Byte.byte)).

(** A computation of the handler: it reads and changes the upload
    directory and either returns or raises. *)
Definition M (A : Type) : Type := fs -> outcome A * fs.

#[export] Instance M_ret : MRet M := fun A a σ => (Return a, σ).

#[export] Instance M_bind : MBind M := fun A B k c σ =>
  match c σ with
  | (Return a, σ') => k a σ'
  | (Raise e, σ') => (Raise e, σ')
  end.

#[export] Instance outcome_ret : MRet outcome := fun A a => Return a.

#[export] Instance outcome_bind : MBind outcome := fun A B k r =>
  match r with
  | Return a => k a
  | Raise e => Raise e
  end.

(** A pure call that may raise. *)
Definition lift {A : Type} (r : outcome A) : M A := fun σ => (r, σ).

(** [try: body / except Exception as e: handler e / finally: final].
    [handler] sees only instances of [Exception]; [final] runs on every
    way out of [body] and [handler], and when it raises, its exception
    replaces whatever was about to be returned or raised. *)
Definition try_except_finally {A : Type}
    (body : M A) (handler : exn -> M A) (final : M unit) : M A :=
  fun σ =>
    let '(r, σ1) := body σ in
    let '(r', σ2) :=
      match r with
      | Return _ => (r, σ1)
      | Raise e => if isinstance_Exception e then handler e σ1 else (r, σ1)
      end in
    match final σ2 with
    | (Return _, σ3) => (r', σ3)
    | (Raise e, σ3) => (Raise e, σ3)
    end.

(** What the environment does to the two file operations of one request. *)
Record Faults : Type := mkFaults {
  (** [None]: [file.save] writes the file.  [Some (e, left)]: it raises
      [e]; [left] is what it has written under the path by then, [None]
      when the path is as it was. *)
  save_fault : option (exn * option (list Byte.byte));
  (** [None]: [os.remove] deletes the file.  [Some e]: it raises [e] and
      the file stays. *)
  remove_fault : option exn
}.

(** [file.save(dst)] *)
Definition save (ε : Faults) (file : FileStorage) (dst : string) : M unit :=
  fun σ =>
    match save_fault ε with
    | None => (Return (), <[dst := stream file]> σ)
    | Some (e, Some written) => (Raise e, <[dst := written]> σ)
    | Some (e, None) => (Raise e, σ)
    end.

(** [os.path.exists(path)] for the path of an upload: true when a file is
    stored under it.  The upload folder itself, which is the path the
    handler computes when the sanitized name is empty, is not a path of
    this map. *)
Definition os_path_exists (path : string) : M bool :=
  fun σ => (Return (bool_decide (is_Some (σ !! path))), σ).

(** [os.remove(path)] *)
Definition os_remove (ε : Faults) (path : string) : M unit :=
  fun σ =>
    match remove_fault ε with
    | Some e => (Raise e, σ)
    | None =>
        match σ !! path with
        | Some _ => (Return (), delete path σ)
        | None => (Raise (Exception "FileNotFoundError" path), σ)
        end
    end.

(** The model handle: [model.predict(path, confidence, overlap).json()].
    The call reads the stored file and leaves the directory alone. *)
Record Model : Type := mkModel {
  model_predict : string -> Z -> Z -> fs -> outcome PredictionResult
}.

Definition predict_json (model : Model) (path : string)
    (confidence overlap : Z) : M PredictionResult :=
  fun σ => (model_predict model path confidence overlap σ, σ).

(** [d.get('predictions', [])] *)
Definition get_predictions (prediction_result : PredictionResult)
  : list Detection :=
  default [] (predictions prediction_result).

(** [app.config['UPLOAD_FOLDER']] *)
Definition UPLOAD_FOLDER : string := "uploads".

(** [os.path.join(a, b)] for a directory [a] without a trailing
    separator: an absolute [b] replaces [a]. *)
Definition os_path_join (a b : string) : string :=
  match b with
  | String "/" _ => b
  | _ => (a ++ "/" ++ b)%string
  end.

(** ** Start-up (lines 25-45) *)

(** Truth value of what [os.getenv] returns: [None] and the empty string
    are false. *)
Definition env_truthy (v : option string) : bool :=
  match v with
  | Some s => negb (String.eqb s "")
  | None => false
  end.

Definition ROBOFLOW_MODEL_ID : string := "cow-and-buffalo-ikxjv".
Definition ROBOFLOW_MODEL_VERSION : Z := 2.

(** The module-level [try] block that sets the global [model].  [connect]
    stands for [Roboflow(api_key=...).workspace(...).project(...)
    .version(...).model].  The global stays [None] when a secret is missing
    or when the connection raises an [Exception]. *)
Definition init_model
    (ROBOFLOW_API_KEY ROBOFLOW_WORKSPACE_ID : option string)
    (connect : string -> string -> string -> Z -> outcome Model)
  : outcome (option Model) :=
  if negb (forallb env_truthy [ROBOFLOW_API_KEY; ROBOFLOW_WORKSPACE_ID]) then
    Return None
  else
    match connect (default "" ROBOFLOW_API_KEY)
                  (default "" ROBOFLOW_WORKSPACE_ID)
                  ROBOFLOW_MODEL_ID ROBOFLOW_MODEL_VERSION with
    | Return model => Return (Some model)
    | Raise e => if isinstance_Exception e then Return None else Raise e
    end.

(** ** The handler (lines 49-111) *)

Section Handler.

(** [werkzeug.utils.secure_filename] *)
Variable secure_filename : string -> string.

(** Lines 81-97: the dictionary sent back for a list of detections. *)
Definition response_data (predictions : list Detection)
  : outcome (list (string * json)) :=
  match predictions with
  | [] =>
      mret [("prediction", JStr "Nothing detected");
            ("confidence", JNum 0);
            ("tags", JArr [JStr "no-detection"])]
  | _ :: _ =>
      best_prediction ← py_max confidence predictions;
      mret [("prediction", JStr (title (class best_prediction)));
            ("confidence", JNum (confidence best_prediction));
            ("tags", JArr (JStr <$> list_set (class <$> predictions)))]
  end.

(** Lines 71-99: the body of the [try] statement. *)
Definition try_body (model : Model) (ε : Faults) (file : FileStorage)
    (filepath : string) : M Response :=
  save ε file filepath;;
  prediction_result ← predict_json model filepath 40 30;
  let predictions := get_predictions prediction_result in
  data ← lift (response_data predictions);
  mret (jsonify data).

(** Lines 101-103: the [except Exception as e] clause. *)
Definition except_clause (e : exn) : M Response :=
  mret (with_status
          (jsonify [("error", JStr "Failed to process the image.");
                    ("details", JStr (str e))]) 500).

(** Lines 105-109: the [finally] clause. *)
Definition finally_clause (ε : Faults) (filepath : string) : M unit :=
  found ← os_path_exists filepath;
  if found : bool then os_remove ε filepath else mret ().

Definition predict (model : option Model) (ε : Faults) (request : Request)
  : M Response :=
  match model with
  | None =>
      mret (with_status
              (jsonify [("error",
                         JStr "Model is not initialized. Check server logs for details.")])
              500)
  | Some model =>
      if negb (contains "file" (files request)) then
        mret (with_status
                (jsonify [("error", JStr "No file part in the request.")]) 400)
      else
        file ← lift (getitem "file" (files request));
        if String.eqb (filename file) "" then
          mret (with_status (jsonify [("error", JStr "No file selected.")]) 400)
        else if truthy file then
          let filename := secure_filename (filename file) in
          let filepath := os_path_join UPLOAD_FOLDER filename in
          try_except_finally
            (try_body model ε file filepath)
            except_clause
            (finally_clause ε filepath)
        else
          mret (with_status
                  (jsonify [("error", JStr "An unknown error occurred.")]) 500)
  end.

End Handler.

(** ** Sample requests

    Concrete requests and environments on which the statements below are
    evaluated. *)

Module Sample.

(** [secure_filename] on a name that is already safe. *)
Definition keep_name (name : string) : string := name.

Definition upload : FileStorage :=
  {| filename := "cow.jpg"; stream := [Byte.xff; Byte.xd8; Byte.xff] |}.

Definition request : Request := {| files := [("file", upload)] |}.

(** A form whose only field has another name. *)
Definition request_without_file : Request := {| files := [("image", upload)] |}.

(** A form submitted with no file chosen. *)
Definition request_empty_name : Request :=
  {| files := [("file", {| filename := ""; stream := [] |})] |}.

Definition detections : list Detection :=
  [ {| class := "cow"; confidence := 55 |};
    {| class := "buffalo"; confidence := 82 |};
    {| class := "cow"; confidence := 40 |} ].

(** A model handle whose call ends the same way whatever it is given. *)
Definition answering (r : outcome PredictionResult) : Model :=
  {| model_predict := fun _ _ _ _ => r |}.

Definition detecting (ds : list Detection) : Model :=
  answering (Return {| predictions := Some ds |}).

Definition unreachable : Model :=
  answering (Raise (Exception "ConnectionError" "Max retries exceeded")).

(** The worker is told to exit while it waits for the provider. *)
Definition interrupted : Model :=
  answering (Raise (BaseExceptionOnly "SystemExit" "1")).

(** Every file operation succeeds. *)
Definition quiet : Faults := {| save_fault := None; remove_fault := None |}.

(** The upload is written, and deleting it is refused. *)
Definition remove_denied : Faults :=
  {| save_fault := None;
     remove_fault := Some (Exception "PermissionError" "[Errno 13] Permission denied") |}.

(** The disk fills up while the upload is written. *)
Definition disk_full : Faults :=
  {| save_fault := Some (Exception "OSError" "[Errno 28] No space left on device",
                         Some [Byte.xff]);
     remove_fault := None |}.

End Sample.

(** * Properties *)

(** ** The built-ins *)

Lemma Qgtb_true (k best_key : Q) :
  Qgtb k best_key = true -> (best_key < k)%Q.
Proof.
  unfold Qgtb. intros H. apply negb_true_iff in H.
  apply Qnot_le_lt. intros Hle. apply Qle_bool_iff in Hle. congruence.
Qed.

Lemma Qgtb_false (k best_key : Q) :
  Qgtb k best_key = false -> (k <= best_key)%Q.
Proof.
  unfold Qgtb. intros H. apply negb_false_iff in H.
  now apply Qle_bool_iff.
Qed.

(** The invariant of the loop of [max]: the items seen so far split around
    the running maximum into strictly smaller ones before it and smaller
    or equal ones after it. *)
Lemma max_from_split {A : Type} (key : A -> Q) (l : list A) :
  forall (pre : list A) (best : A) (post : list A),
    Forall (fun d => (key d < key best)%Q) pre ->
    Forall (fun d => (key d <= key best)%Q) post ->
    exists pre' post',
      pre ++ best :: post ++ l = pre' ++ max_from key best l :: post' /\
      Forall (fun d => (key d < key (max_from key best l))%Q) pre' /\
      Forall (fun d => (key d <= key (max_from key best l))%Q) post'.
Proof.
  induction l as [|item l IH]; intros pre best post Hpre Hpost; simpl.
  - exists pre, post. rewrite app_nil_r. auto.
  - destruct (Qgtb (key item) (key best)) eqn:Hgt.
    + apply Qgtb_true in Hgt.
      destruct (IH (pre ++ best :: post) item []) as (pre' & post' & Heq & H1 & H2).
      * apply Forall_app. split; [|constructor].
        -- eapply Forall_impl; [exact Hpre|].
           intros d Hd. simpl in Hd. eapply Qlt_trans; eauto.
        -- exact Hgt.
        -- eapply Forall_impl; [exact Hpost|].
           intros d Hd. simpl in Hd. eapply Qle_lt_trans; eauto.
      * constructor.
      * exists pre', post'. split; [|auto].
        rewrite <- Heq. simpl. rewrite <- app_assoc. reflexivity.
    + apply Qgtb_false in Hgt.
      destruct (IH pre best (post ++ [item])) as (pre' & post' & Heq & H1 & H2).
      * exact Hpre.
      * apply Forall_app. split; [exact Hpost|]. constructor; [exact Hgt|constructor].
      * exists pre', post'. split; [|auto].
        rewrite <- Heq. rewrite <- app_assoc. reflexivity.
Qed.

(** [max] of a non-empty list returns its first maximum. *)
Lemma py_max_first_maximum {A : Type} (key : A -> Q) (l : list A) :
  l <> [] ->
  exists best pre post,
    py_max key l = Return best /\
    l = pre ++ best :: post /\
    Forall (fun d => (key d < key best)%Q) pre /\
    Forall (fun d => (key d <= key best)%Q) post.
Proof.
  destruct l as [|first l]; [congruence|]. intros _.
  destruct (max_from_split key l [] first []) as (pre & post & Heq & H1 & H2);
    [constructor | constructor |].
  exists (max_from key first l), pre, post. simpl in Heq. auto.
Qed.

Lemma list_set_NoDup (l : list string) : NoDup (list_set l).
Proof. unfold list_set. apply NoDup_elements. Qed.

Lemma elem_of_list_set (l : list string) (x : string) :
  x ∈ list_set l <-> x ∈ l.
Proof. unfold list_set. rewrite elem_of_elements, elem_of_list_to_set. reflexivity. Qed.

Lemma elem_of_list_set_classes (ds : list Detection) (label : string) :
  label ∈ list_set (class <$> ds) <-> exists d, d ∈ ds /\ class d = label.
Proof.
  rewrite elem_of_list_set, list_elem_of_fmap. split.
  - intros (d & -> & Hd). eauto.
  - intros (d & Hd & <-). eauto.
Qed.

(** [str.title] on the labels of the model and on a few other strings. *)
Example title_buffalo : title "buffalo" = "Buffalo".
Proof. reflexivity. Qed.

Example title_upper : title "COW" = "Cow".
Proof. reflexivity. Qed.

Example title_words : title "water-buffalo calf" = "Water-Buffalo Calf".
Proof. reflexivity. Qed.

(** Of two detections with the same, maximal confidence, [max] keeps the
    one that comes first. *)
Example py_max_tie :
  py_max confidence
    [ {| class := "cow"; confidence := 1 # 2 |};
      {| class := "buffalo"; confidence := 9 # 10 |};
      {| class := "cow"; confidence := 18 # 20 |} ]
  = Return {| class := "buffalo"; confidence := 9 # 10 |}.
Proof. reflexivity. Qed.

(** ** Start-up *)

(** A missing or empty secret leaves the global [model] unset, and the
    connection is not attempted. *)
Lemma init_model_missing_secret
    (api_key workspace_id : option string)
    (connect : string -> string -> string -> Z -> outcome Model) :
  env_truthy api_key = false \/ env_truthy workspace_id = false ->
  init_model api_key workspace_id connect = Return None.
Proof.
  intros [H|H]; unfold init_model; simpl; rewrite H; simpl;
    [|rewrite andb_false_r]; reflexivity.
Qed.

(** With both secrets set, the handle is what the connection returns. *)
Lemma init_model_connected
    (api_key workspace_id : string)
    (connect : string -> string -> string -> Z -> outcome Model) (m : Model) :
  api_key <> "" -> workspace_id <> "" ->
  connect api_key workspace_id ROBOFLOW_MODEL_ID ROBOFLOW_MODEL_VERSION = Return m ->
  init_model (Some api_key) (Some workspace_id) connect = Return (Some m).
Proof.
  intros Hk Hw Hc. unfold init_model. simpl.
  apply String.eqb_neq in Hk, Hw. rewrite Hk, Hw. simpl. now rewrite Hc.
Qed.

(** ** The steps of the handler *)

Lemma getitem_contains (key : string) (d : list (string * FileStorage))
    (file : FileStorage) :
  getitem key d = Return file -> contains key d = true.
Proof.
  induction d as [|[k v] d IH]; simpl; [discriminate|].
  destruct (String.eqb k key); simpl; auto.
Qed.

Lemma contains_getitem (key : string) (d : list (string * FileStorage)) :
  contains key d = true -> exists file, getitem key d = Return file.
Proof.
  induction d as [|[k v] d IH]; simpl; [discriminate|].
  destruct (String.eqb k key); simpl; eauto.
Qed.

Lemma truthy_named (file : FileStorage) :
  filename file <> "" -> truthy file = true.
Proof.
  intros Hname. unfold truthy. apply negb_true_iff.
  now apply String.eqb_neq.
Qed.

Section Steps.

Variable secure_filename : string -> string.
Variables (model : Model) (ε : Faults).

(** Once the three validations pass, the handler is its [try]
    statement. *)
Lemma predict_reaches_try (request : Request) (file : FileStorage) (σ : fs) :
  getitem "file" (files request) = Return file ->
  filename file <> "" ->
  predict secure_filename (Some model) ε request σ =
  let filepath := os_path_join UPLOAD_FOLDER (secure_filename (filename file)) in
  try_except_finally (try_body model ε file filepath) except_clause
    (finally_clause ε filepath) σ.
Proof.
  intros Hget Hname. unfold predict.
  rewrite (getitem_contains _ _ _ Hget). simpl.
  unfold mbind, M_bind, lift. rewrite Hget.
  apply String.eqb_neq in Hname as Hneq. rewrite Hneq.
  rewrite (truthy_named _ Hname). reflexivity.
Qed.

Lemma try_body_returns (file : FileStorage) (filepath : string) (σ : fs)
    (prediction_result : PredictionResult) (data : list (string * json)) :
  save_fault ε = None ->
  model_predict model filepath 40 30 (<[filepath := stream file]> σ)
    = Return prediction_result ->
  response_data (get_predictions prediction_result) = Return data ->
  try_body model ε file filepath σ
    = (Return (jsonify data), <[filepath := stream file]> σ).
Proof.
  intros Hsave Hpred Hdata.
  unfold try_body, save, predict_json, lift, mbind, M_bind, mret, M_ret.
  rewrite Hsave, Hpred, Hdata. reflexivity.
Qed.

Lemma try_body_save_raises (file : FileStorage) (filepath : string) (σ : fs)
    (e : exn) (left : option (list Byte.byte)) :
  save_fault ε = Some (e, left) ->
  try_body model ε file filepath σ
    = (Raise e, from_option (fun written => <[filepath := written]> σ) σ left).
Proof.
  intros Hsave.
  unfold try_body, save, mbind, M_bind. rewrite Hsave.
  destruct left; reflexivity.
Qed.

Lemma try_body_predict_raises (file : FileStorage) (filepath : string)
    (σ : fs) (e : exn) :
  save_fault ε = None ->
  model_predict model filepath 40 30 (<[filepath := stream file]> σ) = Raise e ->
  try_body model ε file filepath σ = (Raise e, <[filepath := stream file]> σ).
Proof.
  intros Hsave Hpred.
  unfold try_body, save, predict_json, mbind, M_bind.
  rewrite Hsave, Hpred. reflexivity.
Qed.

(** The [try] body stores at most the upload: whatever it does, deleting
    the path afterwards gives the directory without that path. *)
Lemma try_body_writes_only (file : FileStorage) (filepath : string) (σ : fs) :
  delete filepath (try_body model ε file filepath σ).2 = delete filepath σ.
Proof.
  unfold try_body, save, predict_json, lift, mbind, M_bind, mret, M_ret.
  destruct (save_fault ε) as [[e [written|]]|]; simpl;
    try (apply delete_insert_eq); try reflexivity.
  destruct (model_predict _ _ _ _ _) as [pr|e]; simpl.
  - destruct (response_data _); simpl; apply delete_insert_eq.
  - apply delete_insert_eq.
Qed.

(** When [os.remove] does not raise, the [finally] clause leaves no file
    under the path. *)
Lemma finally_clause_removes (filepath : string) (σ : fs) :
  remove_fault ε = None ->
  finally_clause ε filepath σ = (Return (), delete filepath σ).
Proof.
  intros Hrem.
  unfold finally_clause, os_path_exists, os_remove, mbind, M_bind, mret, M_ret.
  rewrite Hrem. destruct (σ !! filepath) as [x|] eqn:Hlook.
  - rewrite bool_decide_eq_true_2 by eauto. now rewrite Hlook.
  - rewrite bool_decide_eq_false_2 by (intros [? ?]; congruence).
    now rewrite delete_id.
Qed.

(** When [os.remove] raises on a file that is there, so does the
    [finally] clause. *)
Lemma finally_clause_raises (filepath : string) (σ : fs) (e : exn) :
  remove_fault ε = Some e ->
  is_Some (σ !! filepath) ->
  finally_clause ε filepath σ = (Raise e, σ).
Proof.
  intros Hrem Hsome.
  unfold finally_clause, os_path_exists, os_remove, mbind, M_bind.
  rewrite bool_decide_eq_true_2 by exact Hsome. now rewrite Hrem.
Qed.

End Steps.

(** ** The response formatter *)

Lemma response_data_best (ds : list Detection) (best : Detection) :
  ds <> [] ->
  py_max confidence ds = Return best ->
  response_data ds =
  Return [("prediction", JStr (title (class best)));
          ("confidence", JNum (confidence best));
          ("tags", JArr (JStr <$> list_set (class <$> ds)))].
Proof.
  intros Hne Hmax. destruct ds as [|d ds]; [congruence|].
  unfold response_data, mbind, outcome_bind. now rewrite Hmax.
Qed.

(** ** The statements of the specification *)


(** C2, amended.  When the provider returns an empty list of detections and
    deleting the stored upload does not raise, the handler answers 200
    with exactly
    [{"prediction": "Nothing detected", "confidence": 0, "tags": ["no-detection"]}]. *)
Theorem predict_nothing_detected
    (secure_filename : string -> string) (model : Model) (ε : Faults)
    (request : Request) (file : FileStorage) (σ : fs) :
  let filepath := os_path_join UPLOAD_FOLDER (secure_filename (filename file)) in
  getitem "file" (files request) = Return file ->
  filename file <> "" ->
  save_fault ε = None ->
  model_predict model filepath 40 30 (<[filepath := stream file]> σ)
    = Return {| predictions := Some [] |} ->
  remove_fault ε = None ->
  predict secure_filename (Some model) ε request σ =
  (Return {| body := JObj [("prediction", JStr "Nothing detected");
                           ("confidence", JNum 0);
                           ("tags", JArr [JStr "no-detection"])];
             status := 200 |},
   delete filepath σ).
Proof.
  intros filepath Hget Hname Hsave Hpred Hrem.
  rewrite (predict_reaches_try _ _ _ _ _ _ Hget Hname). cbv zeta. fold filepath.
  unfold try_except_finally.
  rewrite (try_body_returns _ _ _ _ _ _ _ Hsave Hpred eq_refl).
  rewrite (finally_clause_removes _ _ _ Hrem), delete_insert_eq. reflexivity.
Qed.

(** C3, amended.  For every request that reaches the save step, whether
    the [try] body returns, raises an exception that is caught or raises
    one that is not, the upload directory holds no file under the upload's
    path when the handler is left, provided deleting it does not raise;
    the rest of the directory is as it was. *)
Theorem predict_removes_upload
    (secure_filename : string -> string) (model : Model) (ε : Faults)
    (request : Request) (file : FileStorage) (σ : fs) :
  let filepath := os_path_join UPLOAD_FOLDER (secure_filename (filename file)) in
  getitem "file" (files request) = Return file ->
  filename file <> "" ->
  remove_fault ε = None ->
  (predict secure_filename (Some model) ε request σ).2 !! filepath = None /\
  (predict secure_filename (Some model) ε request σ).2 = delete filepath σ.
Proof.
  intros filepath Hget Hname Hrem.
  assert (Hfinal : (predict secure_filename (Some model) ε request σ).2
                   = delete filepath σ).
  { rewrite (predict_reaches_try _ _ _ _ _ _ Hget Hname). cbv zeta. fold filepath.
    rewrite <- (try_body_writes_only model ε file filepath σ).
    unfold try_except_finally.
    destruct (try_body model ε file filepath σ) as [[r|e] σ1]; simpl.
    - now rewrite (finally_clause_removes _ _ _ Hrem).
    - destruct (isinstance_Exception e); simpl;
        now rewrite (finally_clause_removes _ _ _ Hrem). }
  split; [|exact Hfinal]. rewrite Hfinal. apply lookup_delete_eq.
Qed.

(** C4.  With no model handle the handler answers 500 with the message
    that the model is not initialized, whatever the request holds: the
    check comes before the look at the form, so a form without a file is
    not answered 400, and nothing is stored. *)
Theorem predict_model_not_initialized
    (secure_filename : string -> string) (ε : Faults) (request : Request)
    (σ : fs) :
  predict secure_filename None ε request σ =
  (Return {| body := JObj [("error",
               JStr "Model is not initialized. Check server logs for details.")];
             status := 500 |},
   σ).
Proof. reflexivity. Qed.

(** C5.  With a model handle and a form that has no field named
    ['file'], the handler answers 400 with "No file part in the request."
    and leaves the upload directory as it was. *)
Theorem predict_no_file_part
    (secure_filename : string -> string) (model : Model) (ε : Faults)
    (request : Request) (σ : fs) :
  contains "file" (files request) = false ->
  predict secure_filename (Some model) ε request σ =
  (Return {| body := JObj [("error", JStr "No file part in the request.")];
             status := 400 |},
   σ).
Proof. intros Hnone. unfold predict. now rewrite Hnone. Qed.

(** C6.  With a model handle and a ['file'] field whose client-supplied
    name is empty, the handler answers 400 with "No file selected." and
    leaves the upload directory as it was. *)
Theorem predict_no_file_selected
    (secure_filename : string -> string) (model : Model) (ε : Faults)
    (request : Request) (file : FileStorage) (σ : fs) :
  getitem "file" (files request) = Return file ->
  filename file = "" ->
  predict secure_filename (Some model) ε request σ =
  (Return {| body := JObj [("error", JStr "No file selected.")];
             status := 400 |},
   σ).
Proof.
  intros Hget Hname. unfold predict.
  rewrite (getitem_contains _ _ _ Hget). simpl.
  unfold mbind, M_bind, lift. rewrite Hget, Hname. reflexivity.
Qed.

(** C7, amended.  When [file.save] or the provider call raises an instance
    of [Exception] and deleting the stored file does not raise, the
    handler answers 500 with
    [{"error": "Failed to process the image.", "details": str(e)}], and
    the clean-up has run: no file is left under the upload's path, even
    when the failed save had written part of it. *)
Theorem predict_processing_failure
    (secure_filename : string -> string) (model : Model) (ε : Faults)
    (request : Request) (file : FileStorage) (σ : fs) (e : exn) :
  let filepath := os_path_join UPLOAD_FOLDER (secure_filename (filename file)) in
  getitem "file" (files request) = Return file ->
  filename file <> "" ->
  ((exists left, save_fault ε = Some (e, left)) \/
   (save_fault ε = None /\
    model_predict model filepath 40 30 (<[filepath := stream file]> σ) = Raise e)) ->
  isinstance_Exception e = true ->
  remove_fault ε = None ->
  predict secure_filename (Some model) ε request σ =
  (Return {| body := JObj [("error", JStr "Failed to process the image.");
                           ("details", JStr (str e))];
             status := 500 |},
   delete filepath σ).
Proof.
  intros filepath Hget Hname Hraise Hexc Hrem.
  rewrite (predict_reaches_try _ _ _ _ _ _ Hget Hname). cbv zeta. fold filepath.
  unfold try_except_finally.
  destruct Hraise as [[left Hsave]|[Hsave Hpred]].
  - rewrite (try_body_save_raises _ _ _ _ _ _ _ Hsave), Hexc. simpl.
    rewrite (finally_clause_removes _ _ _ Hrem).
    destruct left; simpl; [now rewrite delete_insert_eq | reflexivity].
  - rewrite (try_body_predict_raises _ _ _ _ _ _ Hsave Hpred), Hexc. simpl.
    rewrite (finally_clause_removes _ _ _ Hrem), delete_insert_eq. reflexivity.
Qed.

Lemma try_body_status
    (model : Model) (ε : Faults) (file : FileStorage) (filepath : string)
    (σ σ1 : fs) (r : Response) :
  try_body model ε file filepath σ = (Return r, σ1) -> status r = 200.
Proof.
  unfold try_body, save, predict_json, lift, mbind, M_bind, mret, M_ret.
  destruct (save_fault ε) as [[e [written|]]|]; try discriminate.
  destruct (model_predict _ _ _ _ _) as [pr|e]; try discriminate.
  destruct (response_data _) as [data|e]; try discriminate.
  intros H. inversion H. reflexivity.
Qed.

Lemma try_body_saved
    (model : Model) (ε : Faults) (file : FileStorage) (filepath : string)
    (σ : fs) :
  save_fault ε = None ->
  (try_body model ε file filepath σ).2 = <[filepath := stream file]> σ.
Proof.
  intros Hsave.
  unfold try_body, save, predict_json, lift, mbind, M_bind, mret, M_ret.
  rewrite Hsave.
  destruct (model_predict _ _ _ _ _) as [pr|e]; [|reflexivity].
  destruct (response_data _); reflexivity.
Qed.

(** C8.  No request is answered by the final
    [{"error": "An unknown error occurred."}], 500; and once the model,
    the ['file'] field and its name have passed the checks, the handler is
    its [try] statement: a file object whose name is not empty is true, so
    the handler is left from inside the [if file:] block. *)
Theorem unknown_error_unreachable
    (secure_filename : string -> string) (model : option Model) (ε : Faults)
    (request : Request) (σ : fs) :
  (predict secure_filename model ε request σ).1 <>
    Return {| body := JObj [("error", JStr "An unknown error occurred.")];
              status := 500 |} /\
  (forall (m : Model) (file : FileStorage),
     model = Some m ->
     getitem "file" (files request) = Return file ->
     filename file <> "" ->
     let filepath := os_path_join UPLOAD_FOLDER (secure_filename (filename file)) in
     predict secure_filename model ε request σ =
     try_except_finally (try_body m ε file filepath) except_clause
       (finally_clause ε filepath) σ).
Proof.
  split.
  - destruct model as [model|]; [|discriminate].
    unfold predict.
    destruct (contains "file" (files request)); [|discriminate]. simpl.
    unfold mbind, M_bind, lift.
    destruct (getitem "file" (files request)) as [file|e]; [|discriminate].
    unfold truthy.
    destruct (String.eqb (filename file) ""); [discriminate|]. simpl.
    unfold try_except_finally.
    destruct (try_body _ _ _ _ _) as [[r|e] σ1] eqn:Hbody.
    + apply try_body_status in Hbody.
      destruct (finally_clause _ _ _) as [[[]|e'] σ3]; simpl; [|discriminate].
      intros H. inversion H. subst r. discriminate.
    + destruct (isinstance_Exception e); simpl;
        destruct (finally_clause _ _ _) as [[[]|e'] σ3]; simpl; discriminate.
  - intros m file -> Hget Hname. now apply predict_reaches_try.
Qed.

(** C9.  The delete of the [finally] clause is not guarded: when the
    upload has been stored and [os.remove] raises, that exception leaves
    the handler, whatever the provider call did and whatever response was
    about to be returned, and the stored file stays. *)
Theorem cleanup_failure_propagates
    (secure_filename : string -> string) (model : Model) (ε : Faults)
    (request : Request) (file : FileStorage) (σ : fs) (e : exn) :
  let filepath := os_path_join UPLOAD_FOLDER (secure_filename (filename file)) in
  getitem "file" (files request) = Return file ->
  filename file <> "" ->
  save_fault ε = None ->
  remove_fault ε = Some e ->
  predict secure_filename (Some model) ε request σ =
  (Raise e, <[filepath := stream file]> σ).
Proof.
  intros filepath Hget Hname Hsave Hrem.
  rewrite (predict_reaches_try _ _ _ _ _ _ Hget Hname). cbv zeta. fold filepath.
  pose proof (try_body_saved model ε file filepath σ Hsave) as Hstate.
  assert (Hfinal : finally_clause ε filepath (<[filepath := stream file]> σ)
                   = (Raise e, <[filepath := stream file]> σ)).
  { apply finally_clause_raises; [exact Hrem|].
    rewrite lookup_insert_eq. eauto. }
  unfold try_except_finally.
  destruct (try_body model ε file filepath σ) as [[r|e'] σ1]; simpl in Hstate;
    subst σ1.
  - now rewrite Hfinal.
  - destruct (isinstance_Exception e'); simpl; now rewrite Hfinal.
Qed.

(** C10.  For a non-empty list of detections, the response built from it
    has status 200, the class of the detection chosen by [max], in the
    casing it came in, is among its tags, and the tags are not empty and
    hold no label twice. *)
Theorem best_class_among_tags (ds : list Detection) :
  ds <> [] ->
  exists (best : Detection) (tags : list string) (data : list (string * json)),
    py_max confidence ds = Return best /\
    response_data ds = Return data /\
    jsonify data =
      {| body := JObj [("prediction", JStr (title (class best)));
                       ("confidence", JNum (confidence best));
                       ("tags", JArr (JStr <$> tags))];
         status := 200 |} /\
    class best ∈ tags /\
    tags <> [] /\
    NoDup tags.
Proof.
  intros Hne.
  destruct (py_max_first_maximum confidence ds Hne)
    as (best & pre & post & Hmax & Hsplit & _ & _).
  assert (Hin : class best ∈ list_set (class <$> ds)).
  { apply elem_of_list_set_classes. exists best. split; [|reflexivity].
    rewrite Hsplit. apply elem_of_app. right. apply list_elem_of_here. }
  eexists best, (list_set (class <$> ds)), _.
  split; [exact Hmax|]. split; [apply (response_data_best _ _ Hne Hmax)|].
  split; [reflexivity|]. split; [exact Hin|]. split; [|apply list_set_NoDup].
  intros Hnil. rewrite Hnil in Hin. now apply elem_of_nil in Hin.
Qed.

(** ** The statements on sample requests *)

(** The worked example of the specification: three detections, the
    second one the most confident. *)
Example predict_cow_buffalo_cow :
  predict Sample.keep_name (Some (Sample.detecting Sample.detections))
    Sample.quiet Sample.request ∅ =
  (Return {| body := JObj [("prediction", JStr "Buffalo");
                           ("confidence", JNum 82);
                           ("tags", JArr [JStr "cow"; JStr "buffalo"])];
             status := 200 |},
   ∅).
Proof. vm_compute. reflexivity. Qed.



(** A provider that finds nothing, on a quiet file system. *)
Lemma predict_nothing_detected_sample :
  predict Sample.keep_name (Some (Sample.detecting [])) Sample.quiet
    Sample.request ∅ =
  (Return {| body := JObj [("prediction", JStr "Nothing detected");
                           ("confidence", JNum 0);
                           ("tags", JArr [JStr "no-detection"])];
             status := 200 |},
   delete "uploads/cow.jpg" ∅).
Proof.
  apply (predict_nothing_detected Sample.keep_name (Sample.detecting [])
           Sample.quiet Sample.request Sample.upload ∅);
    [reflexivity | discriminate | reflexivity | reflexivity | reflexivity].
Defined.

(** C2 as stated fails: the provider returns an empty list, deleting the
    stored upload is refused, and the handler raises instead of answering
    200. *)
Lemma predict_nothing_detected_cleanup_refused :
  getitem "file" (files Sample.request) = Return Sample.upload /\
  model_predict (Sample.detecting []) "uploads/cow.jpg" 40 30
    (<["uploads/cow.jpg" := stream Sample.upload]> ∅)
    = Return {| predictions := Some [] |} /\
  (predict Sample.keep_name (Some (Sample.detecting [])) Sample.remove_denied
     Sample.request ∅).1
    = Raise (Exception "PermissionError" "[Errno 13] Permission denied").
Proof.
  split; [reflexivity|]. split; [reflexivity|]. vm_compute. reflexivity.
Qed.

(** A provider failure on a quiet file system: the upload is gone
    afterwards. *)
Lemma predict_removes_upload_sample :
  (predict Sample.keep_name (Some Sample.unreachable) Sample.quiet
     Sample.request ∅).2 !! "uploads/cow.jpg" = None /\
  (predict Sample.keep_name (Some Sample.unreachable) Sample.quiet
     Sample.request ∅).2 = delete "uploads/cow.jpg" ∅.
Proof.
  apply (predict_removes_upload Sample.keep_name Sample.unreachable
           Sample.quiet Sample.request Sample.upload ∅);
    [reflexivity | discriminate | reflexivity].
Defined.

(** C3 as stated fails: the request reaches the save step, deleting the
    stored upload is refused, and the upload is still in the directory
    when the handler is left. *)
Lemma predict_leaves_upload_when_remove_refused :
  getitem "file" (files Sample.request) = Return Sample.upload /\
  filename Sample.upload <> "" /\
  (predict Sample.keep_name (Some (Sample.detecting Sample.detections))
     Sample.remove_denied Sample.request ∅).2 !! "uploads/cow.jpg"
    = Some (stream Sample.upload).
Proof.
  split; [reflexivity|]. split; [discriminate|]. vm_compute. reflexivity.
Qed.

(** A form whose only field is named [image]. *)
Lemma predict_no_file_part_sample :
  predict Sample.keep_name (Some (Sample.detecting Sample.detections))
    Sample.quiet Sample.request_without_file ∅ =
  (Return {| body := JObj [("error", JStr "No file part in the request.")];
             status := 400 |},
   ∅).
Proof.
  apply (predict_no_file_part Sample.keep_name
           (Sample.detecting Sample.detections) Sample.quiet
           Sample.request_without_file ∅).
  reflexivity.
Defined.

(** A form sent with no file chosen. *)
Lemma predict_no_file_selected_sample :
  predict Sample.keep_name (Some (Sample.detecting Sample.detections))
    Sample.quiet Sample.request_empty_name ∅ =
  (Return {| body := JObj [("error", JStr "No file selected.")];
             status := 400 |},
   ∅).
Proof.
  apply (predict_no_file_selected Sample.keep_name
           (Sample.detecting Sample.detections) Sample.quiet
           Sample.request_empty_name {| filename := ""; stream := [] |} ∅);
    reflexivity.
Defined.

(** The disk fills up during the save: 500 with the error's text, and the
    part that was written is removed. *)
Lemma predict_processing_failure_sample :
  predict Sample.keep_name (Some (Sample.detecting Sample.detections))
    Sample.disk_full Sample.request ∅ =
  (Return {| body := JObj [("error", JStr "Failed to process the image.");
                           ("details",
                            JStr "[Errno 28] No space left on device")];
             status := 500 |},
   delete "uploads/cow.jpg" ∅).
Proof.
  apply (predict_processing_failure Sample.keep_name
           (Sample.detecting Sample.detections) Sample.disk_full Sample.request
           Sample.upload ∅
           (Exception "OSError" "[Errno 28] No space left on device"));
    [reflexivity | discriminate | left; eexists; reflexivity | reflexivity
    | reflexivity].
Defined.

(** C7 as stated fails in two ways: the provider call raises and deleting
    the stored file is refused, so the handler raises instead of answering
    500; and the provider call raises [SystemExit], which
    [except Exception] does not catch. *)
Lemma predict_processing_failure_not_answered :
  (model_predict Sample.unreachable "uploads/cow.jpg" 40 30
     (<["uploads/cow.jpg" := stream Sample.upload]> ∅)
     = Raise (Exception "ConnectionError" "Max retries exceeded") /\
   (predict Sample.keep_name (Some Sample.unreachable) Sample.remove_denied
      Sample.request ∅).1
     = Raise (Exception "PermissionError" "[Errno 13] Permission denied")) /\
  (model_predict Sample.interrupted "uploads/cow.jpg" 40 30
     (<["uploads/cow.jpg" := stream Sample.upload]> ∅)
     = Raise (BaseExceptionOnly "SystemExit" "1") /\
   (predict Sample.keep_name (Some Sample.interrupted) Sample.quiet
      Sample.request ∅).1
     = Raise (BaseExceptionOnly "SystemExit" "1")).
Proof.
  split; (split; [reflexivity|]); vm_compute; reflexivity.
Qed.

(** The request of the worked example does not end in the fallback. *)
Lemma unknown_error_unreachable_sample :
  (predict Sample.keep_name (Some (Sample.detecting Sample.detections))
     Sample.quiet Sample.request ∅).1 <>
    Return {| body := JObj [("error", JStr "An unknown error occurred.")];
              status := 500 |} /\
  (forall (m : Model) (file : FileStorage),
     Some (Sample.detecting Sample.detections) = Some m ->
     getitem "file" (files Sample.request) = Return file ->
     filename file <> "" ->
     let filepath := os_path_join UPLOAD_FOLDER (Sample.keep_name (filename file)) in
     predict Sample.keep_name (Some (Sample.detecting Sample.detections))
       Sample.quiet Sample.request ∅ =
     try_except_finally (try_body m Sample.quiet file filepath) except_clause
       (finally_clause Sample.quiet filepath) ∅).
Proof.
  exact (unknown_error_unreachable Sample.keep_name
           (Some (Sample.detecting Sample.detections)) Sample.quiet
           Sample.request ∅).
Defined.

(** The upload is stored, the provider answers, the delete is refused:
    the refusal is what leaves the handler. *)
Lemma cleanup_failure_propagates_sample :
  predict Sample.keep_name (Some (Sample.detecting Sample.detections))
    Sample.remove_denied Sample.request ∅ =
  (Raise (Exception "PermissionError" "[Errno 13] Permission denied"),
   <["uploads/cow.jpg" := stream Sample.upload]> ∅).
Proof.
  apply (cleanup_failure_propagates Sample.keep_name
           (Sample.detecting Sample.detections) Sample.remove_denied
           Sample.request Sample.upload ∅
           (Exception "PermissionError" "[Errno 13] Permission denied"));
    [reflexivity | discriminate | reflexivity | reflexivity].
Defined.

(** The tags of the worked example hold the class of its best detection. *)
Lemma best_class_among_tags_sample :
  exists (best : Detection) (tags : list string) (data : list (string * json)),
    py_max confidence Sample.detections = Return best /\
    response_data Sample.detections = Return data /\
    jsonify data =
      {| body := JObj [("prediction", JStr (title (class best)));
                       ("confidence", JNum (confidence best));
                       ("tags", JArr (JStr <$> tags))];
         status := 200 |} /\
    class best ∈ tags /\
    tags <> [] /\
    NoDup tags.
Proof.
  apply (best_class_among_tags Sample.detections). discriminate.
Defined.

(** * Further properties of the code *)

(** ** Start-up (lines 25-45) *)

(** X1.  When the API key or the workspace id is unset or empty, the
    start-up block leaves the model handle unset without trying to
    connect: the result is the same for every behaviour of the provider
    client. *)
Theorem init_model_without_secret
    (api_key workspace_id : option string)
    (connect : string -> string -> string -> Z -> outcome Model) :
  env_truthy api_key = false \/ env_truthy workspace_id = false ->
  init_model api_key workspace_id connect = Return None /\
  forall connect', init_model api_key workspace_id connect'
                   = init_model api_key workspace_id connect.
Proof.
  intros H.
  assert (Hall : forallb env_truthy [api_key; workspace_id] = false).
  { simpl. destruct H as [-> | ->]; [reflexivity | apply andb_false_iff; auto]. }
  split; [|intros connect']; unfold init_model; now rewrite Hall.
Qed.

Lemma init_model_without_secret_sample :
  init_model (Some "") (Some "my-workspace")
    (fun _ _ _ _ => Return (Sample.detecting Sample.detections)) = Return None /\
  forall connect', init_model (Some "") (Some "my-workspace") connect'
                   = init_model (Some "") (Some "my-workspace")
                       (fun _ _ _ _ => Return (Sample.detecting Sample.detections)).
Proof.
  apply (init_model_without_secret (Some "") (Some "my-workspace")
           (fun _ _ _ _ => Return (Sample.detecting Sample.detections))).
  left. reflexivity.
Defined.

(** X2.  The start-up block ends with the model handle unset exactly when
    a secret is unset or empty, or when connecting with the two secrets,
    the model id "cow-and-buffalo-ikxjv" and the version 2 raised an
    instance of [Exception]. *)
Theorem init_model_unset_iff
    (api_key workspace_id : option string)
    (connect : string -> string -> string -> Z -> outcome Model) :
  init_model api_key workspace_id connect = Return None <->
  env_truthy api_key = false \/
  env_truthy workspace_id = false \/
  exists key workspace e,
    api_key = Some key /\ workspace_id = Some workspace /\
    connect key workspace "cow-and-buffalo-ikxjv" 2 = Raise e /\
    isinstance_Exception e = true.
Proof.
  unfold init_model. simpl. rewrite andb_true_r.
  destruct (env_truthy api_key) eqn:Hk; simpl; [|split; auto].
  destruct (env_truthy workspace_id) eqn:Hw; simpl; [|split; auto].
  destruct api_key as [key|]; [|discriminate].
  destruct workspace_id as [workspace|]; [|discriminate]. simpl.
  unfold ROBOFLOW_MODEL_ID, ROBOFLOW_MODEL_VERSION.
  destruct (connect key workspace _ _) as [m|e] eqn:Hc.
  - split; [discriminate|].
    intros [?|[?|(k & w & e & [= <-] & [= <-] & He & _)]]; congruence.
  - destruct (isinstance_Exception e) eqn:He.
    + split; [|reflexivity]. intros _. right. right.
      exists key, workspace, e. auto.
    + split; [discriminate|].
      intros [?|[?|(k & w & e' & [= <-] & [= <-] & He' & Hi)]]; congruence.
Qed.

(** X3.  Whatever left the model handle unset at start-up, a missing
    secret or a connection that raised, every request is then answered
    500 with the message that the model is not initialized, and nothing is
    stored. *)
Theorem predict_after_failed_startup
    (secure_filename : string -> string)
    (api_key workspace_id : option string)
    (connect : string -> string -> string -> Z -> outcome Model)
    (model : option Model) (ε : Faults) (request : Request) (σ : fs) :
  init_model api_key workspace_id connect = Return model ->
  (env_truthy api_key = false \/
   env_truthy workspace_id = false \/
   exists e, connect (default "" api_key) (default "" workspace_id)
               ROBOFLOW_MODEL_ID ROBOFLOW_MODEL_VERSION = Raise e) ->
  predict secure_filename model ε request σ =
  (Return {| body := JObj [("error",
               JStr "Model is not initialized. Check server logs for details.")];
             status := 500 |},
   σ).
Proof.
  intros Hinit Hwhy.
  assert (Hnone : model = None).
  { unfold init_model in Hinit. simpl in Hinit. rewrite andb_true_r in Hinit.
    destruct (env_truthy api_key); simpl in Hinit;
      [|destruct Hwhy as [?|[?|[e He]]]; congruence].
    destruct (env_truthy workspace_id); simpl in Hinit; [|congruence].
    destruct Hwhy as [?|[?|[e He]]]; try discriminate.
    rewrite He in Hinit. destruct (isinstance_Exception e); congruence. }
  subst model. reflexivity.
Qed.

Lemma predict_after_failed_startup_sample :
  predict Sample.keep_name None Sample.quiet Sample.request ∅ =
  (Return {| body := JObj [("error",
               JStr "Model is not initialized. Check server logs for details.")];
             status := 500 |},
   ∅).
Proof.
  apply (predict_after_failed_startup Sample.keep_name
           (Some "key") (Some "my-workspace")
           (fun _ _ _ _ => Raise (Exception "ConnectionError" "no route to host"))
           None Sample.quiet Sample.request ∅);
    [reflexivity | right; right; eexists; reflexivity].
Defined.

(** ** The ways through the handler *)

Lemma contains_false_getitem (key : string) (d : list (string * FileStorage)) :
  contains key d = false -> exists e, getitem key d = Raise e.
Proof.
  induction d as [|[k v] d IH]; simpl; [eauto|].
  destruct (String.eqb k key); simpl; [discriminate | exact IH].
Qed.

(** Building the dictionary never raises: [max] is applied to a list that
    is not empty.  The dictionary has the three keys of a summary. *)
Lemma response_data_returns (ds : list Detection) :
  exists (prediction : string) (score : Q) (tags : list string),
    response_data ds =
    Return [("prediction", JStr prediction); ("confidence", JNum score);
            ("tags", JArr (JStr <$> tags))].
Proof.
  destruct ds as [|d ds].
  - exists "Nothing detected", 0%Q, ["no-detection"]. reflexivity.
  - eexists _, _, _. reflexivity.
Qed.

(** The four ways through the validation chain. *)
Lemma predict_cases
    (secure_filename : string -> string) (model : option Model) (ε : Faults)
    (request : Request) (σ : fs) :
  (model = None /\
   predict secure_filename model ε request σ =
   (Return {| body := JObj [("error",
                JStr "Model is not initialized. Check server logs for details.")];
              status := 500 |}, σ)) \/
  (exists m, model = Some m /\ contains "file" (files request) = false /\
   predict secure_filename model ε request σ =
   (Return {| body := JObj [("error", JStr "No file part in the request.")];
              status := 400 |}, σ)) \/
  (exists m file, model = Some m /\
   getitem "file" (files request) = Return file /\ filename file = "" /\
   predict secure_filename model ε request σ =
   (Return {| body := JObj [("error", JStr "No file selected.")];
              status := 400 |}, σ)) \/
  (exists m file, model = Some m /\
   getitem "file" (files request) = Return file /\ filename file <> "" /\
   predict secure_filename model ε request σ =
   try_except_finally
     (try_body m ε file (os_path_join UPLOAD_FOLDER (secure_filename (filename file))))
     except_clause
     (finally_clause ε (os_path_join UPLOAD_FOLDER (secure_filename (filename file))))
     σ).
Proof.
  destruct model as [m|]; [right|left; split; reflexivity].
  destruct (contains "file" (files request)) eqn:Hin.
  - right. destruct (contains_getitem _ _ Hin) as [file Hget].
    destruct (String.eqb_spec (filename file) "") as [Hname|Hname].
    + left. exists m, file. repeat (split; [assumption || reflexivity|]).
      unfold predict. rewrite Hin. simpl.
      unfold mbind, M_bind, lift. rewrite Hget, Hname. reflexivity.
    + right. exists m, file. repeat (split; [assumption || reflexivity|]).
      now apply predict_reaches_try.
  - left. exists m. repeat (split; [assumption || reflexivity|]).
    unfold predict. now rewrite Hin.
Qed.

(** The ways out of the [try] body. *)
Lemma try_body_cases
    (m : Model) (ε : Faults) (file : FileStorage) (filepath : string) (σ : fs) :
  (exists pr prediction score tags,
     save_fault ε = None /\
     model_predict m filepath 40 30 (<[filepath := stream file]> σ) = Return pr /\
     response_data (get_predictions pr) =
       Return [("prediction", JStr prediction); ("confidence", JNum score);
               ("tags", JArr (JStr <$> tags))] /\
     try_body m ε file filepath σ =
     (Return (jsonify [("prediction", JStr prediction); ("confidence", JNum score);
                       ("tags", JArr (JStr <$> tags))]),
      <[filepath := stream file]> σ)) \/
  (exists e σ1,
     try_body m ε file filepath σ = (Raise e, σ1) /\
     ((exists left, save_fault ε = Some (e, left)) \/
      (save_fault ε = None /\
       model_predict m filepath 40 30 (<[filepath := stream file]> σ) = Raise e))).
Proof.
  destruct (save_fault ε) as [[e left]|] eqn:Hsave.
  - right. eexists e, _.
    split; [exact (try_body_save_raises _ _ _ _ _ _ _ Hsave)|]. left. eauto.
  - destruct (model_predict m filepath 40 30 (<[filepath := stream file]> σ))
      as [pr|e] eqn:Hpred.
    + left. destruct (response_data_returns (get_predictions pr))
        as (prediction & score & tags & Hdata).
      exists pr, prediction, score, tags.
      split; [reflexivity|]. split; [reflexivity|]. split; [exact Hdata|].
      exact (try_body_returns _ _ _ _ _ _ _ Hsave Hpred Hdata).
    + right. eexists e, _.
      split; [exact (try_body_predict_raises _ _ _ _ _ _ Hsave Hpred)|]. right. auto.
Qed.

(** The [finally] clause raises only what [os.remove] was made to raise:
    the test of [os.path.exists] keeps it from deleting a file that is not
    there. *)
Lemma finally_clause_raise_inv (ε : Faults) (filepath : string) (σ σ' : fs)
    (e : exn) :
  finally_clause ε filepath σ = (Raise e, σ') ->
  remove_fault ε = Some e /\ is_Some (σ !! filepath) /\ σ' = σ.
Proof.
  unfold finally_clause, os_path_exists, os_remove, mbind, M_bind, mret, M_ret.
  destruct (σ !! filepath) as [x|] eqn:Hlook.
  - rewrite bool_decide_eq_true_2 by eauto. rewrite Hlook.
    destruct (remove_fault ε) as [e'|]; [|discriminate].
    intros [= -> <-]. eauto.
  - rewrite bool_decide_eq_false_2 by (intros [? ?]; congruence). discriminate.
Qed.

(** The [finally] clause touches no path but the one it is given. *)
Lemma finally_clause_frame (ε : Faults) (filepath p : string) (σ : fs) :
  p <> filepath -> (finally_clause ε filepath σ).2 !! p = σ !! p.
Proof.
  intros Hp.
  unfold finally_clause, os_path_exists, os_remove, mbind, M_bind, mret, M_ret.
  destruct (bool_decide _); [|reflexivity].
  destruct (remove_fault ε); [reflexivity|].
  destruct (σ !! filepath); simpl; [|reflexivity].
  apply lookup_delete_ne. congruence.
Qed.

(** Neither does the [try] body. *)
Lemma try_body_frame (m : Model) (ε : Faults) (file : FileStorage)
    (filepath p : string) (σ : fs) :
  p <> filepath -> (try_body m ε file filepath σ).2 !! p = σ !! p.
Proof.
  intros Hp.
  unfold try_body, save, predict_json, lift, mbind, M_bind, mret, M_ret.
  assert (Hne : filepath <> p) by congruence.
  destruct (save_fault ε) as [[e [written|]]|]; simpl;
    try (now apply lookup_insert_ne); try reflexivity.
  destruct (model_predict _ _ _ _ _) as [pr|e]; simpl.
  - destruct (response_data _); simpl; now apply lookup_insert_ne.
  - now apply lookup_insert_ne.
Qed.

(** The directory a [try] statement leaves is the one its [finally]
    clause leaves after the body: the [except] clause stores nothing. *)
Lemma try_statement_state (m : Model) (ε : Faults) (file : FileStorage)
    (filepath : string) (σ : fs) :
  (try_except_finally (try_body m ε file filepath) except_clause
     (finally_clause ε filepath) σ).2
  = (finally_clause ε filepath (try_body m ε file filepath σ).2).2.
Proof.
  unfold try_except_finally.
  destruct (try_body m ε file filepath σ) as [[r|e] σ1]; simpl.
  - destruct (finally_clause ε filepath σ1) as [[[]|e'] σ3]; reflexivity.
  - destruct (isinstance_Exception e); simpl;
      destruct (finally_clause ε filepath σ1) as [[[]|e'] σ3]; reflexivity.
Qed.

(** The four ways out of the [try] statement of the handler: the delete
    raised; the provider answered; a failure was caught; a raised object
    that is no [Exception] went through. *)
Lemma try_statement_cases (m : Model) (ε : Faults) (file : FileStorage)
    (filepath : string) (σ : fs) :
  let result :=
    try_except_finally (try_body m ε file filepath) except_clause
      (finally_clause ε filepath) σ in
  let raised e :=
    (exists left, save_fault ε = Some (e, left)) \/
    (save_fault ε = None /\
     model_predict m filepath 40 30 (<[filepath := stream file]> σ) = Raise e) in
  (exists e, result.1 = Raise e /\ remove_fault ε = Some e) \/
  (exists pr prediction score tags,
     save_fault ε = None /\
     model_predict m filepath 40 30 (<[filepath := stream file]> σ) = Return pr /\
     response_data (get_predictions pr) =
       Return [("prediction", JStr prediction); ("confidence", JNum score);
               ("tags", JArr (JStr <$> tags))] /\
     result.1 =
       Return (jsonify [("prediction", JStr prediction); ("confidence", JNum score);
                        ("tags", JArr (JStr <$> tags))])) \/
  (exists e, raised e /\ isinstance_Exception e = true /\
     result.1 =
       Return {| body := JObj [("error", JStr "Failed to process the image.");
                               ("details", JStr (str e))];
                 status := 500 |}) \/
  (exists e, raised e /\ isinstance_Exception e = false /\ result.1 = Raise e).
Proof.
  intros result raised. subst result. unfold try_except_finally.
  destruct (try_body_cases m ε file filepath σ)
    as [(pr & prediction & score & tags & Hsave & Hpred & Hdata & Hbody)
       |(e & σ1 & Hbody & Hraised)]; rewrite Hbody.
  - destruct (finally_clause ε filepath _) as [[[]|e'] σ3] eqn:Hfinal; simpl.
    + right. left. exists pr, prediction, score, tags. auto.
    + left. exists e'. split; [reflexivity|].
      now apply finally_clause_raise_inv in Hfinal.
  - destruct (isinstance_Exception e) eqn:Hexc; simpl;
      destruct (finally_clause ε filepath σ1) as [[[]|e'] σ3] eqn:Hfinal; simpl.
    + right. right. left. exists e. auto.
    + left. exists e'. split; [reflexivity|].
      now apply finally_clause_raise_inv in Hfinal.
    + right. right. right. exists e. auto.
    + left. exists e'. split; [reflexivity|].
      now apply finally_clause_raise_inv in Hfinal.
Qed.

(** ** The provider call (lines 76-79) *)

(** X4.  A provider answer without the key ['predictions'] is handled as
    an empty list: provided the delete of the stored upload does not raise,
    the handler answers 200 with the "Nothing detected" summary. *)
Theorem predict_without_predictions_key
    (secure_filename : string -> string) (model : Model) (ε : Faults)
    (request : Request) (file : FileStorage) (σ : fs) :
  let filepath := os_path_join UPLOAD_FOLDER (secure_filename (filename file)) in
  getitem "file" (files request) = Return file ->
  filename file <> "" ->
  save_fault ε = None ->
  model_predict model filepath 40 30 (<[filepath := stream file]> σ)
    = Return {| predictions := None |} ->
  remove_fault ε = None ->
  predict secure_filename (Some model) ε request σ =
  (Return {| body := JObj [("prediction", JStr "Nothing detected");
                           ("confidence", JNum 0);
                           ("tags", JArr [JStr "no-detection"])];
             status := 200 |},
   delete filepath σ).
Proof.
  intros filepath Hget Hname Hsave Hpred Hrem.
  rewrite (predict_reaches_try _ _ _ _ _ _ Hget Hname). cbv zeta. fold filepath.
  unfold try_except_finally.
  rewrite (try_body_returns _ _ _ _ _ _ _ Hsave Hpred eq_refl).
  rewrite (finally_clause_removes _ _ _ Hrem), delete_insert_eq. reflexivity.
Qed.

Lemma predict_without_predictions_key_sample :
  predict Sample.keep_name
    (Some (Sample.answering (Return {| predictions := None |})))
    Sample.quiet Sample.request ∅ =
  (Return {| body := JObj [("prediction", JStr "Nothing detected");
                           ("confidence", JNum 0);
                           ("tags", JArr [JStr "no-detection"])];
             status := 200 |},
   delete "uploads/cow.jpg" ∅).
Proof.
  apply (predict_without_predictions_key Sample.keep_name
           (Sample.answering (Return {| predictions := None |}))
           Sample.quiet Sample.request Sample.upload ∅);
    [reflexivity | discriminate | reflexivity | reflexivity | reflexivity].
Defined.

(** X5.  When [file.save] raises, the provider is not called: the answer
    and the directory are the same for every model handle. *)
Theorem failed_save_skips_provider
    (secure_filename : string -> string) (m1 m2 : Model) (ε : Faults)
    (request : Request) (σ : fs) (e : exn) (left : option (list Byte.byte)) :
  save_fault ε = Some (e, left) ->
  predict secure_filename (Some m1) ε request σ
  = predict secure_filename (Some m2) ε request σ.
Proof.
  intros Hsave. unfold predict.
  destruct (contains "file" (files request)); [|reflexivity]. simpl.
  unfold mbind, M_bind, lift.
  destruct (getitem "file" (files request)) as [file|e']; [|reflexivity].
  destruct (String.eqb (filename file) ""); [reflexivity|].
  destruct (truthy file); [|reflexivity].
  unfold try_except_finally.
  now rewrite !(try_body_save_raises _ _ _ _ _ _ _ Hsave).
Qed.

Lemma failed_save_skips_provider_sample :
  predict Sample.keep_name (Some (Sample.detecting Sample.detections))
    Sample.disk_full Sample.request ∅
  = predict Sample.keep_name (Some Sample.unreachable)
      Sample.disk_full Sample.request ∅.
Proof.
  apply (failed_save_skips_provider Sample.keep_name
           (Sample.detecting Sample.detections) Sample.unreachable
           Sample.disk_full Sample.request ∅
           (Exception "OSError" "[Errno 28] No space left on device")
           (Some [Byte.xff])).
  reflexivity.
Defined.

(** X6.  The handler asks the model one thing only: its answer for the
    stored path with confidence 40 and overlap 30, on the directory that
    holds the saved upload.  Two handles that agree there give the same
    answer and leave the same directory. *)
Theorem predict_asks_provider_once
    (secure_filename : string -> string) (m1 m2 : Model) (ε : Faults)
    (request : Request) (file : FileStorage) (σ : fs) :
  let filepath := os_path_join UPLOAD_FOLDER (secure_filename (filename file)) in
  getitem "file" (files request) = Return file ->
  filename file <> "" ->
  model_predict m1 filepath 40 30 (<[filepath := stream file]> σ)
  = model_predict m2 filepath 40 30 (<[filepath := stream file]> σ) ->
  predict secure_filename (Some m1) ε request σ
  = predict secure_filename (Some m2) ε request σ.
Proof.
  intros filepath Hget Hname Hagree.
  rewrite !(predict_reaches_try _ _ _ _ _ _ Hget Hname). cbv zeta. fold filepath.
  assert (Hbody : try_body m1 ε file filepath σ = try_body m2 ε file filepath σ).
  { unfold try_body, save, predict_json, lift, mbind, M_bind, mret, M_ret.
    destruct (save_fault ε) as [[e [written|]]|]; try reflexivity.
    now rewrite Hagree. }
  unfold try_except_finally. now rewrite Hbody.
Qed.

Lemma predict_asks_provider_once_sample :
  predict Sample.keep_name (Some (Sample.detecting Sample.detections))
    Sample.quiet Sample.request ∅
  = predict Sample.keep_name
      (Some {| model_predict := fun path confidence overlap _ =>
                 if (String.eqb path "uploads/cow.jpg" && (confidence =? 40)
                     && (overlap =? 30))%bool
                 then Return {| predictions := Some Sample.detections |}
                 else Raise (Exception "ValueError" "unexpected call") |})
      Sample.quiet Sample.request ∅.
Proof.
  apply (predict_asks_provider_once Sample.keep_name
           (Sample.detecting Sample.detections) _ Sample.quiet Sample.request
           Sample.upload ∅);
    [reflexivity | discriminate | reflexivity].
Defined.

(** ** The upload directory (lines 66-71 and 105-109) *)

(** X7.  Whatever the request, the provider and the file operations do,
    the handler changes the upload directory at no path other than the one
    computed from the name of the ['file'] field. *)
Theorem predict_touches_only_upload_path
    (secure_filename : string -> string) (model : option Model) (ε : Faults)
    (request : Request) (file : FileStorage) (σ : fs) (p : string) :
  getitem "file" (files request) = Return file ->
  p <> os_path_join UPLOAD_FOLDER (secure_filename (filename file)) ->
  (predict secure_filename model ε request σ).2 !! p = σ !! p.
Proof.
  intros Hget Hp.
  destruct (predict_cases secure_filename model ε request σ)
    as [[_ ->]|[(m & _ & _ & ->)|[(m & f & _ & _ & _ & ->)
       |(m & f & _ & Hget' & _ & ->)]]]; try reflexivity.
  assert (f = file) by congruence. subst f.
  rewrite try_statement_state, finally_clause_frame by exact Hp.
  now apply try_body_frame.
Qed.

Lemma predict_touches_only_upload_path_sample :
  (predict Sample.keep_name (Some Sample.unreachable) Sample.remove_denied
     Sample.request {["uploads/calf.png" := [Byte.x89]]}).2 !! "uploads/calf.png"
  = ({["uploads/calf.png" := [Byte.x89]]} : fs) !! "uploads/calf.png".
Proof.
  apply (predict_touches_only_upload_path Sample.keep_name
           (Some Sample.unreachable) Sample.remove_denied Sample.request
           Sample.upload {["uploads/calf.png" := [Byte.x89]]} "uploads/calf.png");
    [reflexivity | discriminate].
Defined.

(** X8.  A raised object that is not an instance of [Exception]
    ([SystemExit], [KeyboardInterrupt]), coming out of [file.save] or out
    of the provider call, is not turned into a response: it leaves the
    handler, after the [finally] clause has removed whatever is stored
    under the upload's path (provided the delete does not raise). *)
Theorem predict_reraises_after_cleanup
    (secure_filename : string -> string) (model : Model) (ε : Faults)
    (request : Request) (file : FileStorage) (σ : fs) (e : exn) :
  let filepath := os_path_join UPLOAD_FOLDER (secure_filename (filename file)) in
  getitem "file" (files request) = Return file ->
  filename file <> "" ->
  ((exists left, save_fault ε = Some (e, left)) \/
   (save_fault ε = None /\
    model_predict model filepath 40 30 (<[filepath := stream file]> σ) = Raise e)) ->
  isinstance_Exception e = false ->
  remove_fault ε = None ->
  predict secure_filename (Some model) ε request σ
  = (Raise e, delete filepath σ).
Proof.
  intros filepath Hget Hname Hraise Hexc Hrem.
  rewrite (predict_reaches_try _ _ _ _ _ _ Hget Hname). cbv zeta. fold filepath.
  unfold try_except_finally.
  destruct Hraise as [[left Hsave]|[Hsave Hpred]].
  - rewrite (try_body_save_raises _ _ _ _ _ _ _ Hsave), Hexc.
    rewrite (finally_clause_removes _ _ _ Hrem).
    destruct left; simpl; [now rewrite delete_insert_eq | reflexivity].
  - rewrite (try_body_predict_raises _ _ _ _ _ _ Hsave Hpred), Hexc.
    rewrite (finally_clause_removes _ _ _ Hrem), delete_insert_eq. reflexivity.
Qed.

Lemma predict_reraises_after_cleanup_sample :
  predict Sample.keep_name (Some Sample.interrupted) Sample.quiet
    Sample.request ∅
  = (Raise (BaseExceptionOnly "SystemExit" "1"), delete "uploads/cow.jpg" ∅).
Proof.
  apply (predict_reraises_after_cleanup Sample.keep_name Sample.interrupted
           Sample.quiet Sample.request Sample.upload ∅
           (BaseExceptionOnly "SystemExit" "1"));
    [reflexivity | discriminate | right; split; reflexivity | reflexivity
    | reflexivity].
Defined.

(** X9.  The [finally] clause deletes only what [os.path.exists] finds:
    when the sanitized name is not empty (so that the path is not the
    upload folder itself), [file.save] raised before writing anything and
    nothing was stored under the path, [os.remove] is not called, so the
    500 answer is given even in an environment where a delete would raise,
    and the directory is as it was. *)
Theorem predict_skips_remove_when_nothing_stored
    (secure_filename : string -> string) (model : Model) (ε : Faults)
    (request : Request) (file : FileStorage) (σ : fs) (e : exn) :
  let filepath := os_path_join UPLOAD_FOLDER (secure_filename (filename file)) in
  getitem "file" (files request) = Return file ->
  filename file <> "" ->
  secure_filename (filename file) <> "" ->
  save_fault ε = Some (e, None) ->
  isinstance_Exception e = true ->
  σ !! filepath = None ->
  predict secure_filename (Some model) ε request σ =
  (Return {| body := JObj [("error", JStr "Failed to process the image.");
                           ("details", JStr (str e))];
             status := 500 |},
   σ).
Proof.
  intros filepath Hget Hname _ Hsave Hexc Hfree.
  rewrite (predict_reaches_try _ _ _ _ _ _ Hget Hname). cbv zeta. fold filepath.
  unfold try_except_finally.
  rewrite (try_body_save_raises _ _ _ _ _ _ _ Hsave), Hexc. simpl.
  unfold finally_clause, os_path_exists, mbind, M_bind, mret, M_ret.
  rewrite bool_decide_eq_false_2 by (rewrite Hfree; intros [? ?]; discriminate).
  reflexivity.
Qed.

Lemma predict_skips_remove_when_nothing_stored_sample :
  predict Sample.keep_name (Some (Sample.detecting Sample.detections))
    {| save_fault := Some (Exception "PermissionError" "[Errno 13] Permission denied",
                           None);
       remove_fault := Some (Exception "PermissionError" "[Errno 13] Permission denied") |}
    Sample.request ∅ =
  (Return {| body := JObj [("error", JStr "Failed to process the image.");
                           ("details", JStr "[Errno 13] Permission denied")];
             status := 500 |},
   ∅).
Proof.
  apply (predict_skips_remove_when_nothing_stored Sample.keep_name
           (Sample.detecting Sample.detections) _ Sample.request Sample.upload ∅
           (Exception "PermissionError" "[Errno 13] Permission denied"));
    reflexivity || discriminate.
Defined.

(** ** What the handler answers (lines 52-111) *)

(** X10.  Every response of the handler has one of three shapes: status
    200 with exactly the keys ['prediction'], ['confidence'] and ['tags']
    (a string, a number, a list of strings); status 400 with the single
    key ['error']; or status 500 with ['error'] first. *)
Theorem predict_response_shape
    (secure_filename : string -> string) (model : option Model) (ε : Faults)
    (request : Request) (σ : fs) (r : Response) :
  (predict secure_filename model ε request σ).1 = Return r ->
  (status r = 200 /\
   exists prediction score tags,
     body r = JObj [("prediction", JStr prediction); ("confidence", JNum score);
                    ("tags", JArr (JStr <$> tags))]) \/
  (status r = 400 /\ exists msg, body r = JObj [("error", JStr msg)]) \/
  (status r = 500 /\ exists msg rest, body r = JObj (("error", JStr msg) :: rest)).
Proof.
  intros Hr.
  destruct (predict_cases secure_filename model ε request σ)
    as [[_ Heq]|[(m & _ & _ & Heq)|[(m & f & _ & _ & _ & Heq)
       |(m & f & _ & _ & _ & Heq)]]]; rewrite Heq in Hr; clear Heq.
  - injection Hr as <-. right. right. split; [reflexivity|]. eauto.
  - injection Hr as <-. right. left. split; [reflexivity|]. eauto.
  - injection Hr as <-. right. left. split; [reflexivity|]. eauto.
  - destruct (try_statement_cases m ε f
                (os_path_join UPLOAD_FOLDER (secure_filename (filename f))) σ)
      as [(e & Hres & _)|[(pr & prediction & score & tags & _ & _ & _ & Hres)
         |[(e & _ & _ & Hres)|(e & _ & _ & Hres)]]];
      rewrite Hres in Hr; try discriminate; injection Hr as <-.
    + left. split; [reflexivity|]. eauto.
    + right. right. split; [reflexivity|]. eauto.
Qed.

Lemma predict_response_shape_sample :
  let r := {| body := JObj [("prediction", JStr "Buffalo");
                            ("confidence", JNum 82);
                            ("tags", JArr [JStr "cow"; JStr "buffalo"])];
              status := 200 |} in
  (status r = 200 /\
   exists prediction score tags,
     body r = JObj [("prediction", JStr prediction); ("confidence", JNum score);
                    ("tags", JArr (JStr <$> tags))]) \/
  (status r = 400 /\ exists msg, body r = JObj [("error", JStr msg)]) \/
  (status r = 500 /\ exists msg rest, body r = JObj (("error", JStr msg) :: rest)).
Proof.
  cbv zeta.
  apply (predict_response_shape Sample.keep_name
           (Some (Sample.detecting Sample.detections)) Sample.quiet
           Sample.request ∅).
  vm_compute. reflexivity.
Defined.

(** X11.  The handler raises only in two situations: [os.remove] raised in
    the [finally] clause, or [file.save] or the provider call raised an
    object that is not an instance of [Exception].  In every other case it
    returns a response. *)
Theorem predict_raises_only
    (secure_filename : string -> string) (model : option Model) (ε : Faults)
    (request : Request) (σ : fs) (e : exn) :
  (predict secure_filename model ε request σ).1 = Raise e ->
  remove_fault ε = Some e \/
  (isinstance_Exception e = false /\
   exists m file,
     model = Some m /\ getitem "file" (files request) = Return file /\
     let filepath := os_path_join UPLOAD_FOLDER (secure_filename (filename file)) in
     ((exists left, save_fault ε = Some (e, left)) \/
      (save_fault ε = None /\
       model_predict m filepath 40 30 (<[filepath := stream file]> σ) = Raise e))).
Proof.
  intros He.
  destruct (predict_cases secure_filename model ε request σ)
    as [[_ Heq]|[(m & _ & _ & Heq)|[(m & f & _ & _ & _ & Heq)
       |(m & f & Hm & Hget & _ & Heq)]]]; rewrite Heq in He; clear Heq;
    try discriminate.
  destruct (try_statement_cases m ε f
              (os_path_join UPLOAD_FOLDER (secure_filename (filename f))) σ)
    as [(e' & Hres & Hrem)|[(pr & prediction & score & tags & _ & _ & _ & Hres)
       |[(e' & _ & _ & Hres)|(e' & Hraised & Hexc & Hres)]]];
    rewrite Hres in He; try discriminate; injection He as ->.
  - left. exact Hrem.
  - right. split; [exact Hexc|]. exists m, f. auto.
Qed.

Lemma predict_raises_only_sample :
  remove_fault Sample.remove_denied
    = Some (Exception "PermissionError" "[Errno 13] Permission denied") \/
  (isinstance_Exception (Exception "PermissionError" "[Errno 13] Permission denied")
     = false /\
   exists m file,
     Some (Sample.detecting Sample.detections) = Some m /\
     getitem "file" (files Sample.request) = Return file /\
     let filepath := os_path_join UPLOAD_FOLDER (Sample.keep_name (filename file)) in
     ((exists left,
         save_fault Sample.remove_denied
         = Some (Exception "PermissionError" "[Errno 13] Permission denied", left)) \/
      (save_fault Sample.remove_denied = None /\
       model_predict m filepath 40 30 (<[filepath := stream file]> ∅)
       = Raise (Exception "PermissionError" "[Errno 13] Permission denied")))).
Proof.
  apply (predict_raises_only Sample.keep_name
           (Some (Sample.detecting Sample.detections)) Sample.remove_denied
           Sample.request ∅).
  vm_compute. reflexivity.
Defined.

(** X12.  A 200 answer always comes from the provider: the upload was
    saved, the provider call returned, and the body is the summary built
    from what it returned. *)
Theorem predict_200_from_provider
    (secure_filename : string -> string) (model : option Model) (ε : Faults)
    (request : Request) (σ : fs) (r : Response) :
  (predict secure_filename model ε request σ).1 = Return r ->
  status r = 200 ->
  exists m file pr data,
    model = Some m /\
    getitem "file" (files request) = Return file /\
    filename file <> "" /\
    save_fault ε = None /\
    (let filepath := os_path_join UPLOAD_FOLDER (secure_filename (filename file)) in
     model_predict m filepath 40 30 (<[filepath := stream file]> σ) = Return pr) /\
    response_data (get_predictions pr) = Return data /\
    r = jsonify data.
Proof.
  intros Hr Hstatus.
  destruct (predict_cases secure_filename model ε request σ)
    as [[_ Heq]|[(m & _ & _ & Heq)|[(m & f & _ & _ & _ & Heq)
       |(m & f & Hm & Hget & Hname & Heq)]]]; rewrite Heq in Hr; clear Heq;
    try (injection Hr as <-; discriminate).
  destruct (try_statement_cases m ε f
              (os_path_join UPLOAD_FOLDER (secure_filename (filename f))) σ)
    as [(e & Hres & _)|[(pr & prediction & score & tags & Hsave & Hpred & Hdata & Hres)
       |[(e & _ & _ & Hres)|(e & _ & _ & Hres)]]];
    rewrite Hres in Hr; try discriminate; injection Hr as <-;
    try discriminate.
  exists m, f, pr. eexists. repeat (split; [eassumption || reflexivity|]).
  reflexivity.
Qed.

Lemma predict_200_from_provider_sample :
  exists m file pr data,
    Some (Sample.detecting Sample.detections) = Some m /\
    getitem "file" (files Sample.request) = Return file /\
    filename file <> "" /\
    save_fault Sample.quiet = None /\
    (let filepath := os_path_join UPLOAD_FOLDER (Sample.keep_name (filename file)) in
     model_predict m filepath 40 30 (<[filepath := stream file]> ∅) = Return pr) /\
    response_data (get_predictions pr) = Return data /\
    {| body := JObj [("prediction", JStr "Buffalo");
                     ("confidence", JNum 82);
                     ("tags", JArr [JStr "cow"; JStr "buffalo"])];
       status := 200 |} = jsonify data.
Proof.
  apply (predict_200_from_provider Sample.keep_name
           (Some (Sample.detecting Sample.detections)) Sample.quiet
           Sample.request ∅);
    [vm_compute; reflexivity | reflexivity].
Defined.

(** X13.  A 400 answer is given only by the two checks of the form, with a
    model handle set: the ['file'] field is absent or its name is empty.
    The upload directory is then as it was. *)
Theorem predict_400_only_validation
    (secure_filename : string -> string) (model : option Model) (ε : Faults)
    (request : Request) (σ : fs) (r : Response) :
  (predict secure_filename model ε request σ).1 = Return r ->
  status r = 400 ->
  (exists m, model = Some m) /\
  (contains "file" (files request) = false \/
   exists file, getitem "file" (files request) = Return file /\ filename file = "") /\
  (predict secure_filename model ε request σ).2 = σ.
Proof.
  intros Hr Hstatus.
  destruct (predict_cases secure_filename model ε request σ)
    as [[_ Heq]|[(m & Hm & Hin & Heq)|[(m & f & Hm & Hget & Hname & Heq)
       |(m & f & _ & _ & _ & Heq)]]]; rewrite Heq in Hr |- *.
  - injection Hr as <-. discriminate.
  - split; [eauto|]. split; [left; exact Hin | reflexivity].
  - split; [eauto|]. split; [right; eauto | reflexivity].
  - exfalso.
    destruct (try_statement_cases m ε f
                (os_path_join UPLOAD_FOLDER (secure_filename (filename f))) σ)
      as [(e & Hres & _)|[(pr & prediction & score & tags & _ & _ & _ & Hres)
         |[(e & _ & _ & Hres)|(e & _ & _ & Hres)]]];
      rewrite Hres in Hr; try discriminate; injection Hr as <-; discriminate.
Qed.

Lemma predict_400_only_validation_sample :
  (exists m, Some (Sample.detecting Sample.detections) = Some m) /\
  (contains "file" (files Sample.request_empty_name) = false \/
   exists file,
     getitem "file" (files Sample.request_empty_name) = Return file /\
     filename file = "") /\
  (predict Sample.keep_name (Some (Sample.detecting Sample.detections))
     Sample.quiet Sample.request_empty_name ∅).2 = ∅.
Proof.
  apply (predict_400_only_validation Sample.keep_name
           (Some (Sample.detecting Sample.detections)) Sample.quiet
           Sample.request_empty_name ∅
           {| body := JObj [("error", JStr "No file selected.")]; status := 400 |});
    reflexivity.
Defined.

(** ** The form (lines 56-62) *)

Lemma getitem_skips (key : string) (pre post : list (string * FileStorage))
    (file : FileStorage) :
  contains key pre = false ->
  getitem key (pre ++ (key, file) :: post) = Return file.
Proof.
  induction pre as [|[k v] pre IH]; simpl.
  - intros _. now rewrite String.eqb_refl.
  - destruct (String.eqb k key); simpl; [discriminate | exact IH].
Qed.

(** X14.  Only the first field named ['file'] counts: fields with other
    names before it, and any field after it, a second ['file'] included,
    change neither the answer nor what happens to the directory. *)
Theorem predict_reads_first_file_field
    (secure_filename : string -> string) (model : option Model) (ε : Faults)
    (pre post : list (string * FileStorage)) (file : FileStorage) (σ : fs) :
  contains "file" pre = false ->
  predict secure_filename model ε {| files := pre ++ ("file", file) :: post |} σ
  = predict secure_filename model ε {| files := [("file", file)] |} σ.
Proof.
  intros Hpre. destruct model as [m|]; [|reflexivity].
  pose proof (getitem_skips "file" pre post file Hpre) as Hget.
  pose proof (getitem_contains _ _ _ Hget) as Hin.
  unfold predict, mbind, M_bind, lift.
  change (files {| files := pre ++ ("file", file) :: post |})
    with (pre ++ ("file", file) :: post).
  rewrite Hin, Hget. reflexivity.
Qed.

Lemma predict_reads_first_file_field_sample :
  predict Sample.keep_name (Some (Sample.detecting Sample.detections))
    Sample.quiet
    {| files := [("comment", {| filename := "note.txt"; stream := [] |})]
                ++ ("file", Sample.upload)
                :: [("file", {| filename := "calf.png"; stream := [Byte.x89] |})] |}
    ∅
  = predict Sample.keep_name (Some (Sample.detecting Sample.detections))
      Sample.quiet {| files := [("file", Sample.upload)] |} ∅.
Proof.
  apply (predict_reads_first_file_field Sample.keep_name
           (Some (Sample.detecting Sample.detections)) Sample.quiet
           [("comment", {| filename := "note.txt"; stream := [] |})]
           [("file", {| filename := "calf.png"; stream := [Byte.x89] |})]
           Sample.upload ∅).
  reflexivity.
Defined.

(** ** The stored path (lines 66-67) *)

Lemma os_path_join_relative (a : string) (c : ascii) (b : string) :
  c <> "/"%char ->
  os_path_join a (String c b) = (a ++ "/" ++ String c b)%string.
Proof.
  intros Hc.
  destruct c as [[] [] [] [] [] [] [] []]; try reflexivity.
  now contradict Hc.
Qed.

(** X15.  Two sanitized names are stored under the same path exactly when
    they are the same name: within the upload folder, uploads collide only
    through equal names. *)
Theorem os_path_join_upload_injective (a b : string) :
  os_path_join UPLOAD_FOLDER a = os_path_join UPLOAD_FOLDER b <-> a = b.
Proof.
  split; [|now intros ->].
  assert (Hrel : forall c s t,
            c <> "/"%char ->
            os_path_join UPLOAD_FOLDER (String c s) = t ->
            t = ("uploads/" ++ String c s)%string).
  { intros c s t Hc <-. now rewrite os_path_join_relative. }
  destruct a as [|ca a], b as [|cb b].
  - reflexivity.
  - destruct (ascii_dec cb "/") as [->|Hcb]; [discriminate|].
    intros H. symmetry in H. apply Hrel in H; [discriminate|exact Hcb].
  - destruct (ascii_dec ca "/") as [->|Hca]; [discriminate|].
    intros H. apply Hrel in H; [discriminate|exact Hca].
  - destruct (ascii_dec ca "/") as [->|Hca], (ascii_dec cb "/") as [->|Hcb].
    + simpl. auto.
    + intros H. symmetry in H. apply Hrel in H; [discriminate|exact Hcb].
    + intros H. apply Hrel in H; [discriminate|exact Hca].
    + rewrite !os_path_join_relative by assumption.
      unfold UPLOAD_FOLDER. simpl. now intros [= -> ->].
Qed.

(** ** The prediction label (line 94) *)

Lemma to_lower_to_upper (c : ascii) : to_lower (to_upper c) = to_lower c.
Proof. destruct c as [[] [] [] [] [] [] [] []]; reflexivity. Qed.

Lemma to_lower_idempotent (c : ascii) : to_lower (to_lower c) = to_lower c.
Proof. destruct c as [[] [] [] [] [] [] [] []]; reflexivity. Qed.

Lemma to_upper_idempotent (c : ascii) : to_upper (to_upper c) = to_upper c.
Proof. destruct c as [[] [] [] [] [] [] [] []]; reflexivity. Qed.

Lemma cased_to_lower (c : ascii) :
  is_upper (to_lower c) || is_lower (to_lower c) = is_upper c || is_lower c.
Proof. destruct c as [[] [] [] [] [] [] [] []]; reflexivity. Qed.

Lemma cased_to_upper (c : ascii) :
  is_upper (to_upper c) || is_lower (to_upper c) = is_upper c || is_lower c.
Proof. destruct c as [[] [] [] [] [] [] [] []]; reflexivity. Qed.

Lemma title_from_case_only (previous_is_cased : bool) (s : string) :
  to_lower <$> list_ascii_of_string (title_from previous_is_cased s)
  = to_lower <$> list_ascii_of_string s.
Proof.
  revert previous_is_cased.
  induction s as [|c s IH]; intros previous_is_cased; [reflexivity|].
  simpl. rewrite IH. f_equal.
  destruct previous_is_cased;
    [apply to_lower_idempotent | apply to_lower_to_upper].
Qed.

(** X16.  For a class label that is ASCII text, the ['prediction']
    string differs from the label by the case of letters only: character
    by character the two are equal once put in lower case, so they have
    the same length and the same non-letters. *)
Theorem title_changes_case_only (s : string) :
  isascii s = true ->
  to_lower <$> list_ascii_of_string (title s)
  = to_lower <$> list_ascii_of_string s.
Proof. intros _. apply title_from_case_only. Qed.

Lemma title_changes_case_only_sample :
  to_lower <$> list_ascii_of_string (title "water-buffalo")
  = to_lower <$> list_ascii_of_string "water-buffalo".
Proof. apply (title_changes_case_only "water-buffalo"). reflexivity. Defined.

Lemma ascii_to_lower (c : ascii) :
  (N_of_ascii (to_lower c) <? 128)%N = (N_of_ascii c <? 128)%N.
Proof. destruct c as [[] [] [] [] [] [] [] []]; reflexivity. Qed.

Lemma ascii_to_upper (c : ascii) :
  (N_of_ascii (to_upper c) <? 128)%N = (N_of_ascii c <? 128)%N.
Proof. destruct c as [[] [] [] [] [] [] [] []]; reflexivity. Qed.

(** Title-casing ASCII text gives ASCII text. *)
Lemma isascii_title_from (previous_is_cased : bool) (s : string) :
  isascii (title_from previous_is_cased s) = isascii s.
Proof.
  revert previous_is_cased. unfold isascii.
  induction s as [|c s IH]; intros previous_is_cased; [reflexivity|].
  simpl. rewrite IH. f_equal.
  destruct previous_is_cased; [apply ascii_to_lower | apply ascii_to_upper].
Qed.

Lemma title_from_idempotent (previous_is_cased : bool) (s : string) :
  title_from previous_is_cased (title_from previous_is_cased s)
  = title_from previous_is_cased s.
Proof.
  revert previous_is_cased.
  induction s as [|c s IH]; intros previous_is_cased; [reflexivity|].
  simpl. destruct previous_is_cased.
  - rewrite to_lower_idempotent, cased_to_lower, IH. reflexivity.
  - rewrite to_upper_idempotent, cased_to_upper, IH. reflexivity.
Qed.

(** X17.  For a label that is ASCII text, the title-cased label is ASCII
    text again, and title-casing it once more changes nothing. *)
Theorem title_idempotent (s : string) :
  isascii s = true ->
  isascii (title s) = true /\ title (title s) = title s.
Proof.
  intros Hascii. split.
  - unfold title. now rewrite isascii_title_from.
  - apply title_from_idempotent.
Qed.

Lemma title_idempotent_sample :
  isascii (title "water-buffalo") = true /\
  title (title "water-buffalo") = title "water-buffalo".
Proof. apply (title_idempotent "water-buffalo"). reflexivity. Defined.

(** X18.  A 500 answer has one of two causes, told apart by the body: no
    model handle was set at start-up, or the body of the [try] statement
    raised an instance of [Exception], whose text is then under
    ['details']. *)
Theorem predict_500_causes
    (secure_filename : string -> string) (model : option Model) (ε : Faults)
    (request : Request) (σ : fs) (r : Response) :
  (predict secure_filename model ε request σ).1 = Return r ->
  status r = 500 ->
  (model = None /\
   body r = JObj [("error",
              JStr "Model is not initialized. Check server logs for details.")]) \/
  (exists m file e,
     model = Some m /\ getitem "file" (files request) = Return file /\
     filename file <> "" /\
     (let filepath := os_path_join UPLOAD_FOLDER (secure_filename (filename file)) in
      (try_body m ε file filepath σ).1 = Raise e) /\
     isinstance_Exception e = true /\
     body r = JObj [("error", JStr "Failed to process the image.");
                    ("details", JStr (str e))]).
Proof.
  intros Hr Hstatus.
  destruct (predict_cases secure_filename model ε request σ)
    as [[Hm Heq]|[(m & _ & _ & Heq)|[(m & f & _ & _ & _ & Heq)
       |(m & f & Hm & Hget & Hname & Heq)]]]; rewrite Heq in Hr; clear Heq.
  - injection Hr as <-. left. auto.
  - injection Hr as <-. discriminate.
  - injection Hr as <-. discriminate.
  - right. exists m, f.
    unfold try_except_finally in Hr.
    destruct (try_body m ε f _ σ) as [[r0|e] σ1] eqn:Hbody; simpl in Hr.
    + apply try_body_status in Hbody.
      destruct (finally_clause _ _ _) as [[[]|e'] σ3]; simpl in Hr;
        [|discriminate].
      injection Hr as <-. congruence.
    + exists e. destruct (isinstance_Exception e) eqn:Hexc; simpl in Hr;
        destruct (finally_clause _ _ _) as [[[]|e'] σ3]; simpl in Hr;
        try discriminate.
      injection Hr as <-.
      split; [exact Hm|]. split; [exact Hget|]. split; [exact Hname|].
      split; [cbv zeta; now rewrite Hbody|]. split; reflexivity.
Qed.

Lemma predict_500_causes_sample :
  let r := {| body := JObj [("error", JStr "Failed to process the image.");
                            ("details", JStr "Max retries exceeded")];
              status := 500 |} in
  (Some Sample.unreachable = None /\
   body r = JObj [("error",
              JStr "Model is not initialized. Check server logs for details.")]) \/
  (exists m file e,
     Some Sample.unreachable = Some m /\
     getitem "file" (files Sample.request) = Return file /\
     filename file <> "" /\
     (let filepath := os_path_join UPLOAD_FOLDER (Sample.keep_name (filename file)) in
      (try_body m Sample.quiet file filepath ∅).1 = Raise e) /\
     isinstance_Exception e = true /\
     body r = JObj [("error", JStr "Failed to process the image.");
                    ("details", JStr (str e))]).
Proof.
  cbv zeta.
  apply (predict_500_causes Sample.keep_name (Some Sample.unreachable)
           Sample.quiet Sample.request ∅);
    [vm_compute; reflexivity | reflexivity].
Defined.
